(** * ofVec3d: a three-dimensional vector of doubles

    A shallow embedding of [src/ofVec3d.h].  The C++ class stores three
    [double] fields and every method is straight-line arithmetic on them,
    so each method becomes a Rocq function on a record of three scalars.

    The arithmetic is kept behind a small interface, [Scalar], with two
    instances:
    - [double_scalar]: IEEE-754 binary64, through Rocq's primitive floats.
      This is the arithmetic the compiled code performs, every operation
      rounded to binary64 (no fused multiply-add, no extended precision);
      it computes, so the methods can be run on concrete doubles.
    - [real_scalar]: the real numbers, that is the same code read with exact
      arithmetic.  It is used where a statement is about the geometry of a
      formula and cannot hold bit for bit on doubles.

    A [const] method is a function from the receiver to its result; a
    mutating method is a function from the receiver to the receiver's new
    value, written as the same sequence of field assignments as the source.
    C++ overloads get a suffix: [getRotated_axis], [getRotated_euler],
    [getRotated_pivot]; operators are [op_eq], [op_ne], [op_div], ...;
    [match] is a keyword of Rocq and becomes [match_]. *)

From Stdlib Require Import Bool List ZArith Lia Floats Reals Lra Psatz RNsatz.

(* Decimal literals such as 0.1 denote the closest double, as in C++. *)
#[global] Set Warnings "-inexact-float".

(** ** The scalar interface *)

Class Scalar (T : Type) : Type := {
  s0 : T;                       (* the literals 0 and 0.0 *)
  s1 : T;                       (* the literals 1 and 1.0 *)
  sadd : T -> T -> T;
  ssub : T -> T -> T;
  smul : T -> T -> T;
  sdiv : T -> T -> T;
  ssqrt : T -> T;               (* sqrt, <cmath> *)
  sfabs : T -> T;               (* fabs, <cmath> *)
  seqb : T -> T -> bool;        (* a == b *)
  sltb : T -> T -> bool         (* a < b *)
}.

Declare Scope scalar_scope.
Delimit Scope scalar_scope with sc.
Notation "a + b" := (sadd a b) : scalar_scope.
Notation "a - b" := (ssub a b) : scalar_scope.
Notation "a * b" := (smul a b) : scalar_scope.
Notation "a / b" := (sdiv a b) : scalar_scope.
Notation "a == b" := (seqb a b) (at level 70, no associativity) : scalar_scope.
(* C's [a != b] is the negation of [a == b], also on NaN. *)
Notation "a != b" := (negb (seqb a b)) (at level 70, no associativity) : scalar_scope.
Notation "a < b" := (sltb a b) : scalar_scope.
(* C's [a > b] is [b < a]; both are false when an operand is NaN. *)
Notation "a > b" := (sltb b a) : scalar_scope.

(** The functions of <cmath> that primitive floats do not provide. *)
Module Cmath.
Class Lib (T : Type) : Type := {
  sin : T -> T;
  cos : T -> T;
  acos : T -> T
}.
End Cmath.

(** The two conversion factors of [ofConstants.h] used by this header. *)
Class OfConstants (T : Type) : Type := {
  DEG_TO_RAD : T;
  RAD_TO_DEG : T
}.

(** ** The data *)

Record ofVec3d (T : Type) : Type := Vec3 { x : T; y : T; z : T }.

Arguments Vec3 {T} _ _ _.
Arguments x {T} _.
Arguments y {T} _.
Arguments z {T} _.

Section Fields.
Context {T : Type}.

(** Assignment to one field of the receiver. *)
Definition set_x (this : ofVec3d T) (a : T) : ofVec3d T := Vec3 a (y this) (z this).
Definition set_y (this : ofVec3d T) (a : T) : ofVec3d T := Vec3 (x this) a (z this).
Definition set_z (this : ofVec3d T) (a : T) : ofVec3d T := Vec3 (x this) (y this) a.

(** [set(_x, _y, _z)] *)
Definition set (this : ofVec3d T) (_x _y _z : T) : ofVec3d T :=
    let this := set_x this _x in
    let this := set_y this _y in
    set_z this _z.
End Fields.

(** ** The methods that need arithmetic only *)

Section Methods.
Context {T : Type} {S : Scalar T}.
Local Open Scope scalar_scope.
Local Open Scope bool_scope.

(** [ofVec3d()] *)
Definition ofVec3d_default : ofVec3d T := Vec3 s0 s0 s0.

(** [operator==] *)
Definition op_eq (this vec : ofVec3d T) : bool :=
    (x this == x vec) && (y this == y vec) && (z this == z vec).

(** [operator!=] *)
Definition op_ne (this vec : ofVec3d T) : bool :=
    (x this != x vec) || (y this != y vec) || (z this != z vec).

(** [match(vec, tolerance)] *)
Definition match_ (this vec : ofVec3d T) (tolerance : T) : bool :=
    (sfabs (x this - x vec) < tolerance)
    && (sfabs (y this - y vec) < tolerance)
    && (sfabs (z this - z vec) < tolerance).

(** [operator/(const ofVec3d&)] *)
Definition op_div_vec (this vec : ofVec3d T) : ofVec3d T :=
    Vec3 (if x vec != s0 then x this / x vec else x this)
         (if y vec != s0 then y this / y vec else y this)
         (if z vec != s0 then z this / z vec else z this).

(** [operator/=(const ofVec3d&)] *)
Definition op_div_assign_vec (this vec : ofVec3d T) : ofVec3d T :=
    let this := if x vec != s0 then set_x this (x this / x vec) else this in
    let this := if y vec != s0 then set_y this (y this / y vec) else this in
    let this := if z vec != s0 then set_z this (z this / z vec) else this in
    this.

(** [operator/(const double)] *)
Definition op_div (this : ofVec3d T) (f : T) : ofVec3d T :=
    if f == s0 then Vec3 (x this) (y this) (z this)
    else Vec3 (x this / f) (y this / f) (z this / f).

(** [operator/=(const double)] *)
Definition op_div_assign (this : ofVec3d T) (f : T) : ofVec3d T :=
    if f == s0 then this
    else
      let this := set_x this (x this / f) in
      let this := set_y this (y this / f) in
      let this := set_z this (z this / f) in
      this.

(** [length()] and [lengthSquared()] *)
Definition length (this : ofVec3d T) : T :=
    ssqrt (x this * x this + y this * y this + z this * z this).


(** [dot(vec)] *)
Definition dot (this vec : ofVec3d T) : T :=
    x this * x vec + y this * y vec + z this * z vec.

(** [getScaled(length)] *)
Definition getScaled (this : ofVec3d T) (length : T) : ofVec3d T :=
    let l := ssqrt (x this * x this + y this * y this + z this * z this) in
    if l > s0 then
      Vec3 ((x this / l) * length) ((y this / l) * length) ((z this / l) * length)
    else ofVec3d_default.

(** [scale(length)] *)
Definition scale (this : ofVec3d T) (length : T) : ofVec3d T :=
    let l := ssqrt (x this * x this + y this * y this + z this * z this) in
    if l > s0 then
      let this := set_x this ((x this / l) * length) in
      let this := set_y this ((y this / l) * length) in
      let this := set_z this ((z this / l) * length) in
      this
    else this.

(** [getNormalized()] *)
Definition getNormalized (this : ofVec3d T) : ofVec3d T :=
    let length := ssqrt (x this * x this + y this * y this + z this * z this) in
    if length > s0 then Vec3 (x this / length) (y this / length) (z this / length)
    else ofVec3d_default.

(** [normalize()] *)
Definition normalize (this : ofVec3d T) : ofVec3d T :=
    let length := ssqrt (x this * x this + y this * y this + z this * z this) in
    if length > s0 then
      let this := set_x this (x this / length) in
      let this := set_y this (y this / length) in
      let this := set_z this (z this / length) in
      this
    else this.



(** [getInterpolated(pnt, p)] *)
Definition getInterpolated (this pnt : ofVec3d T) (p : T) : ofVec3d T :=
    Vec3 (x this * (s1 - p) + x pnt * p)
         (y this * (s1 - p) + y pnt * p)
         (z this * (s1 - p) + z pnt * p).

(** [interpolate(pnt, p)] *)
Definition interpolate (this pnt : ofVec3d T) (p : T) : ofVec3d T :=
    let this := set_x this (x this * (s1 - p) + x pnt * p) in
    let this := set_y this (y this * (s1 - p) + y pnt * p) in
    let this := set_z this (z this * (s1 - p) + z pnt * p) in
    this.

(** [getMapped(origin, vx, vy, vz)] *)
Definition getMapped (this origin vx vy vz : ofVec3d T) : ofVec3d T :=
    Vec3 (x origin + x this * x vx + y this * x vy + z this * x vz)
         (y origin + x this * y vx + y this * y vy + z this * y vz)
         (z origin + x this * z vx + y this * z vy + z this * z vz).

(** [map(origin, vx, vy, vz)]: [z] is overwritten first, from the old
      fields, then [x] and [y] from the two saved values. *)
Definition map (this origin vx vy vz : ofVec3d T) : ofVec3d T :=
    let xmap := x origin + x this * x vx + y this * x vy + z this * x vz in
    let ymap := y origin + x this * y vx + y this * y vy + z this * y vz in
    let this := set_z this (z origin + x this * z vx + y this * z vy + z this * z vz) in
    let this := set_x this xmap in
    let this := set_y this ymap in
    this.

(** [distance(pnt)] *)
Definition distance (this pnt : ofVec3d T) : T :=
    let vx := x this - x pnt in
    let vy := y this - y pnt in
    let vz := z this - z pnt in
    ssqrt (vx * vx + vy * vy + vz * vz).
End Methods.

(** ** The methods that also need <cmath> and the conversion factors *)

Section TrigMethods.
Context {T : Type} {S : Scalar T} {M : Cmath.Lib T} {K : OfConstants T}.
Local Open Scope scalar_scope.

(** [getRotated(angle, axis)] *)
Definition getRotated_axis (this : ofVec3d T) (angle : T) (axis : ofVec3d T) : ofVec3d T :=
    let ax := getNormalized axis in
    let a := angle * DEG_TO_RAD in
    let sina := Cmath.sin a in
    let cosa := Cmath.cos a in
    let cosb := s1 - cosa in
    Vec3 (x this * (x ax * x ax * cosb + cosa)
          + y this * (x ax * y ax * cosb - z ax * sina)
          + z this * (x ax * z ax * cosb + y ax * sina))
         (x this * (y ax * x ax * cosb + z ax * sina)
          + y this * (y ax * y ax * cosb + cosa)
          + z this * (y ax * z ax * cosb - x ax * sina))
         (x this * (z ax * x ax * cosb - y ax * sina)
          + y this * (z ax * y ax * cosb + x ax * sina)
          + z this * (z ax * z ax * cosb + cosa)).

(** [rotate(angle, axis)] *)
Definition rotate_axis (this : ofVec3d T) (angle : T) (axis : ofVec3d T) : ofVec3d T :=
    let ax := getNormalized axis in
    let a := angle * DEG_TO_RAD in
    let sina := Cmath.sin a in
    let cosa := Cmath.cos a in
    let cosb := s1 - cosa in
    let nx := x this * (x ax * x ax * cosb + cosa)
              + y this * (x ax * y ax * cosb - z ax * sina)
              + z this * (x ax * z ax * cosb + y ax * sina) in
    let ny := x this * (y ax * x ax * cosb + z ax * sina)
              + y this * (y ax * y ax * cosb + cosa)
              + z this * (y ax * z ax * cosb - x ax * sina) in
    let nz := x this * (z ax * x ax * cosb - y ax * sina)
              + y this * (z ax * y ax * cosb + x ax * sina)
              + z this * (z ax * z ax * cosb + cosa) in
    let this := set_x this nx in
    let this := set_y this ny in
    let this := set_z this nz in
    this.

(** [getRotated(ax, ay, az)] *)
Definition getRotated_euler (this : ofVec3d T) (ax ay az : T) : ofVec3d T :=
    let a := Cmath.cos (DEG_TO_RAD * ax) in
    let b := Cmath.sin (DEG_TO_RAD * ax) in
    let c := Cmath.cos (DEG_TO_RAD * ay) in
    let d := Cmath.sin (DEG_TO_RAD * ay) in
    let e := Cmath.cos (DEG_TO_RAD * az) in
    let f := Cmath.sin (DEG_TO_RAD * az) in
    let nx := c * e * x this - c * f * y this + d * z this in
    let ny := (a * f + b * d * e) * x this + (a * e - b * d * f) * y this - b * c * z this in
    let nz := (b * f - a * d * e) * x this + (a * d * f + b * e) * y this + a * c * z this in
    Vec3 nx ny nz.


(** [getRotated(angle, pivot, axis)] *)
Definition getRotated_pivot (this : ofVec3d T) (angle : T) (pivot axis : ofVec3d T)
    : ofVec3d T :=
    let ax := getNormalized axis in
    let tx := x this - x pivot in
    let ty := y this - y pivot in
    let tz := z this - z pivot in
    let a := angle * DEG_TO_RAD in
    let sina := Cmath.sin a in
    let cosa := Cmath.cos a in
    let cosb := s1 - cosa in
    let xrot := tx * (x ax * x ax * cosb + cosa)
                + ty * (x ax * y ax * cosb - z ax * sina)
                + tz * (x ax * z ax * cosb + y ax * sina) in
    let yrot := tx * (y ax * x ax * cosb + z ax * sina)
                + ty * (y ax * y ax * cosb + cosa)
                + tz * (y ax * z ax * cosb - x ax * sina) in
    let zrot := tx * (z ax * x ax * cosb - y ax * sina)
                + ty * (z ax * y ax * cosb + x ax * sina)
                + tz * (z ax * z ax * cosb + cosa) in
    Vec3 (xrot + x pivot) (yrot + y pivot) (zrot + z pivot).


(** [angle(vec)] *)
Definition angle (this vec : ofVec3d T) : T :=
    let n1 := getNormalized this in
    let n2 := getNormalized vec in
    Cmath.acos (dot n1 n2) * RAD_TO_DEG.

(** [angleRad(vec)] *)
Definition angleRad (this vec : ofVec3d T) : T :=
    let n1 := getNormalized this in
    let n2 := getNormalized vec in
    Cmath.acos (dot n1 n2).
End TrigMethods.

(** ** The two arithmetics *)

(** [double]: IEEE-754 binary64. *)
#[global] Instance double_scalar : Scalar float := {|
  s0 := 0%float;
  s1 := 1%float;
  sadd := PrimFloat.add;
  ssub := PrimFloat.sub;
  smul := PrimFloat.mul;
  sdiv := PrimFloat.div;
  ssqrt := PrimFloat.sqrt;
  sfabs := PrimFloat.abs;
  seqb := PrimFloat.eqb;
  sltb := PrimFloat.ltb
|}.


#[global] Instance real_cmath : Cmath.Lib R := {|
  Cmath.sin := Rtrigo_def.sin;
  Cmath.cos := Rtrigo_def.cos;
  Cmath.acos := Ratan.acos
|}.

(** Modelled from the spec: [DEG_TO_RAD] and [RAD_TO_DEG] are defined in
    [ofConstants.h], which is not part of the sources at hand; the spec
    calls them the degree-to-radian conversion and its inverse, that is
    pi/180 and 180/pi. *)
#[global] Instance real_constants : OfConstants R := {|
  DEG_TO_RAD := (PI / 180)%R;
  RAD_TO_DEG := (180 / PI)%R
|}.

Definition double3 := ofVec3d float.

(** A vector of doubles none of whose components is NaN or infinite. *)
Definition finite3 (v : double3) : bool :=
  is_finite (x v) && is_finite (y v) && is_finite (z v).

(** A vector of doubles none of whose components is NaN. *)
Definition nan_free3 (v : double3) : bool :=
  negb (is_nan (x v)) && negb (is_nan (y v)) && negb (is_nan (z v)).


(** ** The rest of the header

    The methods below complete the class: the remaining operators, the
    products, the midpoint, the centroid, the radian forms of the rotations
    and the alignment tests.  They need three more things from the
    arithmetic than [Scalar] offers. *)

Class ScalarMore (T : Type) : Type := {
  sneg : T -> T;                (* unary minus *)
  s2 : T;                       (* the literal 2.0 *)
  sint : Z -> T                 (* the conversion of an [int] to [double] *)
}.

#[global] Instance double_scalar_more : ScalarMore float := {|
  sneg := PrimFloat.opp;
  s2 := 2%float;
  sint := fun n =>
    if (n <? 0)%Z then PrimFloat.opp (PrimFloat.of_uint63 (Uint63.of_Z (- n)))
    else PrimFloat.of_uint63 (Uint63.of_Z n)
|}.


Section MoreMethods.
Context {T : Type} {S : Scalar T}.
Local Open Scope scalar_scope.
Local Open Scope bool_scope.

(** [ofVec3d(double _all)] and [set(double _scalar)] *)
Definition ofVec3d_all (_all : T) : ofVec3d T := Vec3 _all _all _all.

Definition set_scalar (this : ofVec3d T) (_scalar : T) : ofVec3d T :=
    let this := set_x this _scalar in
    let this := set_y this _scalar in
    let this := set_z this _scalar in
    this.

(** [operator+(const ofVec3d&)] and [operator+=] *)
Definition op_add (this pnt : ofVec3d T) : ofVec3d T :=
    Vec3 (x this + x pnt) (y this + y pnt) (z this + z pnt).

Definition op_add_assign (this pnt : ofVec3d T) : ofVec3d T :=
    let this := set_x this (x this + x pnt) in
    let this := set_y this (y this + y pnt) in
    let this := set_z this (z this + z pnt) in
    this.

(** [operator-(const ofVec3d&)] and [operator-=] *)
Definition op_sub (this vec : ofVec3d T) : ofVec3d T :=
    Vec3 (x this - x vec) (y this - y vec) (z this - z vec).

Definition op_sub_assign (this vec : ofVec3d T) : ofVec3d T :=
    let this := set_x this (x this - x vec) in
    let this := set_y this (y this - y vec) in
    let this := set_z this (z this - z vec) in
    this.

(** [operator*(const ofVec3d&)] and [operator*=] *)
Definition op_mul_vec (this vec : ofVec3d T) : ofVec3d T :=
    Vec3 (x this * x vec) (y this * y vec) (z this * z vec).

Definition op_mul_assign_vec (this vec : ofVec3d T) : ofVec3d T :=
    let this := set_x this (x this * x vec) in
    let this := set_y this (y this * y vec) in
    let this := set_z this (z this * z vec) in
    this.

(** [operator+(const double)], [operator-(const double)],
    [operator*(const double)] and their assignment forms *)
Definition op_add_scalar (this : ofVec3d T) (f : T) : ofVec3d T :=
    Vec3 (x this + f) (y this + f) (z this + f).

Definition op_add_assign_scalar (this : ofVec3d T) (f : T) : ofVec3d T :=
    let this := set_x this (x this + f) in
    let this := set_y this (y this + f) in
    let this := set_z this (z this + f) in
    this.

Definition op_sub_scalar (this : ofVec3d T) (f : T) : ofVec3d T :=
    Vec3 (x this - f) (y this - f) (z this - f).

Definition op_sub_assign_scalar (this : ofVec3d T) (f : T) : ofVec3d T :=
    let this := set_x this (x this - f) in
    let this := set_y this (y this - f) in
    let this := set_z this (z this - f) in
    this.

Definition op_mul (this : ofVec3d T) (f : T) : ofVec3d T :=
    Vec3 (x this * f) (y this * f) (z this * f).

Definition op_mul_assign (this : ofVec3d T) (f : T) : ofVec3d T :=
    let this := set_x this (x this * f) in
    let this := set_y this (y this * f) in
    let this := set_z this (z this * f) in
    this.

(** The non-member operators, with the scalar on the left. *)
Definition scalar_add (f : T) (vec : ofVec3d T) : ofVec3d T :=
    Vec3 (f + x vec) (f + y vec) (f + z vec).

Definition scalar_sub (f : T) (vec : ofVec3d T) : ofVec3d T :=
    Vec3 (f - x vec) (f - y vec) (f - z vec).

Definition scalar_mul (f : T) (vec : ofVec3d T) : ofVec3d T :=
    Vec3 (f * x vec) (f * y vec) (f * z vec).

Definition scalar_div (f : T) (vec : ofVec3d T) : ofVec3d T :=
    Vec3 (f / x vec) (f / y vec) (f / z vec).

(** [squareDistance(pnt)] *)
Definition squareDistance (this pnt : ofVec3d T) : T :=
    let vx := x this - x pnt in
    let vy := y this - y pnt in
    let vz := z this - z pnt in
    vx * vx + vy * vy + vz * vz.

(** [getCrossed(vec)] *)
Definition getCrossed (this vec : ofVec3d T) : ofVec3d T :=
    Vec3 (y this * z vec - z this * y vec)
         (z this * x vec - x this * z vec)
         (x this * y vec - y this * x vec).

(** [cross(vec)]: [z] is overwritten first, from the old fields. *)
Definition cross (this vec : ofVec3d T) : ofVec3d T :=
    let _x := y this * z vec - z this * y vec in
    let _y := z this * x vec - x this * z vec in
    let this := set_z this (x this * y vec - y this * x vec) in
    let this := set_x this _x in
    let this := set_y this _y in
    this.

(** [getPerpendicular(vec)] *)
Definition getPerpendicular (this vec : ofVec3d T) : ofVec3d T :=
    let crossX := y this * z vec - z this * y vec in
    let crossY := z this * x vec - x this * z vec in
    let crossZ := x this * y vec - y this * x vec in
    let length := ssqrt (crossX * crossX + crossY * crossY + crossZ * crossZ) in
    if length > s0 then Vec3 (crossX / length) (crossY / length) (crossZ / length)
    else ofVec3d_default.

(** [perpendicular(vec)] *)
Definition perpendicular (this vec : ofVec3d T) : ofVec3d T :=
    let crossX := y this * z vec - z this * y vec in
    let crossY := z this * x vec - x this * z vec in
    let crossZ := x this * y vec - y this * x vec in
    let length := ssqrt (crossX * crossX + crossY * crossY + crossZ * crossZ) in
    if length > s0 then
      let this := set_x this (crossX / length) in
      let this := set_y this (crossY / length) in
      let this := set_z this (crossZ / length) in
      this
    else
      let this := set_x this s0 in
      let this := set_y this s0 in
      let this := set_z this s0 in
      this.

Context {E : ScalarMore T}.

(** [operator-()] *)
Definition op_neg (this : ofVec3d T) : ofVec3d T :=
    Vec3 (sneg (x this)) (sneg (y this)) (sneg (z this)).



(** The loop of [average]: it runs over [points[0]], ..., [points[num-1]]. *)
Fixpoint average_loop (this : ofVec3d T) (points : list (ofVec3d T)) : ofVec3d T :=
    match points with
    | nil => this
    | p :: rest =>
        let this := set_x this (x this + x p) in
        let this := set_y this (y this + y p) in
        let this := set_z this (z this + z p) in
        average_loop this rest
    end.

(** [average(points, num)].  The array is a list; a [num] beyond its end
    makes the loop read past the array, which the model reports as [None]. *)
Definition average (this : ofVec3d T) (points : list (ofVec3d T)) (num : Z)
    : option (ofVec3d T) :=
    if (Z.of_nat (List.length points) <? num)%Z then None
    else
      let this := set_x this s0 in
      let this := set_y this s0 in
      let this := set_z this s0 in
      let this := average_loop this (List.firstn (Z.to_nat num) points) in
      let this := set_x this (x this / sint num) in
      let this := set_y this (y this / sint num) in
      let this := set_z this (z this / sint num) in
      Some this.
End MoreMethods.

Section MoreTrigMethods.
Context {T : Type} {S : Scalar T} {M : Cmath.Lib T} {K : OfConstants T}.
Local Open Scope scalar_scope.

(** [getRotatedRad(angle, axis)] *)
Definition getRotatedRad_axis (this : ofVec3d T) (angle : T) (axis : ofVec3d T)
    : ofVec3d T :=
    let ax := getNormalized axis in
    let a := angle in
    let sina := Cmath.sin a in
    let cosa := Cmath.cos a in
    let cosb := s1 - cosa in
    Vec3 (x this * (x ax * x ax * cosb + cosa)
          + y this * (x ax * y ax * cosb - z ax * sina)
          + z this * (x ax * z ax * cosb + y ax * sina))
         (x this * (y ax * x ax * cosb + z ax * sina)
          + y this * (y ax * y ax * cosb + cosa)
          + z this * (y ax * z ax * cosb - x ax * sina))
         (x this * (z ax * x ax * cosb - y ax * sina)
          + y this * (z ax * y ax * cosb + x ax * sina)
          + z this * (z ax * z ax * cosb + cosa)).

(** [getRotatedRad(ax, ay, az)] *)
Definition getRotatedRad_euler (this : ofVec3d T) (ax ay az : T) : ofVec3d T :=
    let a := Cmath.cos ax in
    let b := Cmath.sin ax in
    let c := Cmath.cos ay in
    let d := Cmath.sin ay in
    let e := Cmath.cos az in
    let f := Cmath.sin az in
    let nx := c * e * x this - c * f * y this + d * z this in
    let ny := (a * f + b * d * e) * x this + (a * e - b * d * f) * y this - b * c * z this in
    let nz := (b * f - a * d * e) * x this + (a * d * f + b * e) * y this + a * c * z this in
    Vec3 nx ny nz.

(** [getRotatedRad(angle, pivot, axis)] *)
Definition getRotatedRad_pivot (this : ofVec3d T) (angle : T) (pivot axis : ofVec3d T)
    : ofVec3d T :=
    let ax := getNormalized axis in
    let tx := x this - x pivot in
    let ty := y this - y pivot in
    let tz := z this - z pivot in
    let a := angle in
    let sina := Cmath.sin a in
    let cosa := Cmath.cos a in
    let cosb := s1 - cosa in
    let xrot := tx * (x ax * x ax * cosb + cosa)
                + ty * (x ax * y ax * cosb - z ax * sina)
                + tz * (x ax * z ax * cosb + y ax * sina) in
    let yrot := tx * (y ax * x ax * cosb + z ax * sina)
                + ty * (y ax * y ax * cosb + cosa)
                + tz * (y ax * z ax * cosb - x ax * sina) in
    let zrot := tx * (z ax * x ax * cosb - y ax * sina)
                + ty * (z ax * y ax * cosb + x ax * sina)
                + tz * (z ax * z ax * cosb + cosa) in
    Vec3 (xrot + x pivot) (yrot + y pivot) (zrot + z pivot).

(** [isAligned(vec, tolerance)] and its alias [align] *)
Definition isAligned (this vec : ofVec3d T) (tolerance : T) : bool :=
    let angle := angle this vec in
    angle < tolerance.

Definition align (this vec : ofVec3d T) (tolerance : T) : bool :=
    isAligned this vec tolerance.

(** [isAlignedRad(vec, tolerance)] and its alias [alignRad] *)
Definition isAlignedRad (this vec : ofVec3d T) (tolerance : T) : bool :=
    let angle := angleRad this vec in
    angle < tolerance.

Definition alignRad (this vec : ofVec3d T) (tolerance : T) : bool :=
    isAlignedRad this vec tolerance.
End MoreTrigMethods.

(** Two specification-level values that are each other's negation, or
    both a zero. *)
Definition opp_or_zeros (f g : spec_float) : Prop :=
  g = SFopp f \/ (exists s t, f = S754_zero s /\ g = S754_zero t).

(** * Facts about binary64 arithmetic

    Derived from the specification of the primitive operations
    ([FloatAxioms]): what the few operations the statements below rely on
    do on every double. *)

Module Binary64.
Local Open Scope float_scope.

Lemma round_shift52 (s : bool) (m : positive) (e : Z) :
  SpecFloat.bounded prec emax m e = true ->
  binary_round_aux prec emax s (Zpos (m * 4503599627370496)) (e + -52) loc_Exact
  = S754_finite s m e.
Proof.
  intros Hb. apply andb_prop in Hb as [Hc He].
  unfold canonical_mantissa in Hc. apply Z.eqb_eq in Hc.
  rewrite Pos.mul_comm. cbn [Pos.mul].
  unfold binary_round_aux, shr_fexp.
  cbn [Zdigits2 digits2_pos shr_record_of_loc].
  rewrite !Pos2Z.inj_succ.
  set (d := Zpos (digits2_pos m)) in *.
  replace (fexp prec emax _ - (e + -52))%Z with 52%Z.
  2:{ match goal with |- _ = (fexp _ _ ?a - _)%Z => replace a with (d + e)%Z by lia end.
      rewrite Hc. lia. }
  cbn [shr SpecFloat.iter_pos shr_1 orb].
  cbn [shr_m loc_of_shr_record round_nearest_even Zdigits2].
  fold d. replace (e + -52 + 52)%Z with e by lia.
  rewrite Hc, Z.sub_diag. cbn [shr shr_m shr_record_of_loc].
  rewrite He. reflexivity.
Qed.

Lemma Prim2SF_one : Prim2SF 1 = S754_finite false 4503599627370496 (-52).
Proof. reflexivity. Qed.

Lemma Prim2SF_zero : Prim2SF 0 = S754_zero false.
Proof. reflexivity. Qed.

(** Multiplying by the literal 1 returns the operand, bit for bit. *)
Lemma mul_1_r (u : float) : u * 1 = u.
Proof.
  apply Prim2SF_inj. rewrite mul_spec, Prim2SF_one.
  pose proof (Prim2SF_valid u) as Hv.
  destruct (Prim2SF u) as [s|s| |s m e]; try (destruct s; reflexivity).
  - reflexivity.
  - unfold SF64mul, SFmul. rewrite xorb_false_r. now apply round_shift52.
Qed.

(** What [is_finite] says about the specification-level value. *)
Lemma is_finite_cases (u : float) :
  is_finite u = true ->
  (exists s, Prim2SF u = S754_zero s) \/ (exists s m e, Prim2SF u = S754_finite s m e).
Proof.
  unfold is_finite, is_nan, is_infinity.
  rewrite !eqb_spec, abs_spec.
  change (Prim2SF infinity) with (S754_infinity false).
  destruct (Prim2SF u) as [s|s| |s m e]; eauto.
  - destruct s; discriminate.
  - discriminate.
Qed.

Lemma SFeqb_refl_zero_or_finite (f : spec_float) :
  (exists s, f = S754_zero s) \/ (exists s m e, f = S754_finite s m e) ->
  SFeqb f f = true.
Proof.
  intros [[s ->]|[s [m [e ->]]]]; unfold SFeqb, SFcompare.
  - reflexivity.
  - rewrite Z.compare_refl.
    assert (Hm : Pos.compare_cont Eq m m = Eq) by apply Pos.compare_refl.
    rewrite Hm. destruct s; reflexivity.
Qed.

(** A finite double times the literal 0 is a zero (of either sign). *)
Lemma mul_0_r_finite (u : float) :
  is_finite u = true -> exists s, Prim2SF (u * 0) = S754_zero s.
Proof.
  intros H. rewrite mul_spec, Prim2SF_zero.
  destruct (is_finite_cases _ H) as [[s ->]|[s [m [e ->]]]]; eexists; reflexivity.
Qed.

(** Adding a zero of either sign to a finite double gives a double that
    compares equal to it (only the sign of a zero can change). *)
Lemma add_zero_r_eqb (u w : float) (s : bool) :
  is_finite u = true -> Prim2SF w = S754_zero s -> (u + w =? u) = true.
Proof.
  intros H Hw. rewrite eqb_spec, add_spec, Hw.
  destruct (is_finite_cases _ H) as [[s' ->]|[s' [m [e ->]]]].
  - destruct s', s; reflexivity.
  - apply (SFeqb_refl_zero_or_finite (S754_finite s' m e)). right. eauto.
Qed.

Lemma add_zero_l_eqb (u w : float) (s : bool) :
  is_finite u = true -> Prim2SF w = S754_zero s -> (w + u =? u) = true.
Proof.
  intros H Hw. rewrite eqb_spec, add_spec, Hw.
  destruct (is_finite_cases _ H) as [[s' ->]|[s' [m [e ->]]]].
  - destruct s', s; reflexivity.
  - apply (SFeqb_refl_zero_or_finite (S754_finite s' m e)). right. eauto.
Qed.

(** A double that is not NaN compares equal to itself. *)
Lemma eqb_refl_not_nan (u : float) : is_nan u = false -> (u =? u) = true.
Proof. unfold is_nan. now destruct (u =? u). Qed.

(** The doubles that compare equal to the literal 0 are +0 and -0. *)
Lemma eqb_zero_cases (u : float) : (u =? 0) = true -> u = 0 \/ u = (-0).
Proof.
  rewrite eqb_spec, Prim2SF_zero. intros H.
  assert (Hs : exists s, Prim2SF u = S754_zero s).
  { destruct (Prim2SF u) as [s|s| |s m e]; eauto; try discriminate; destruct s; discriminate. }
  destruct Hs as [[|] Hs]; [right|left]; apply Prim2SF_inj; rewrite Hs; reflexivity.
Qed.
(** The literal 0 times a finite double is a zero (of either sign). *)
Lemma mul_0_l_finite (u : float) :
  is_finite u = true -> exists s, Prim2SF (0 * u) = S754_zero s.
Proof.
  intros H. rewrite mul_spec, Prim2SF_zero.
  destruct (is_finite_cases _ H) as [[s ->]|[s [m [e ->]]]]; eexists; reflexivity.
Qed.

(** The sum of two zeros is a zero. *)
Lemma add_zeros (u w : float) (s t : bool) :
  Prim2SF u = S754_zero s -> Prim2SF w = S754_zero t ->
  exists r, Prim2SF (u + w) = S754_zero r.
Proof.
  intros Hu Hw. rewrite add_spec, Hu, Hw.
  destruct s, t; eexists; reflexivity.
Qed.

(** The two zeros. *)
Lemma zero_cases (u : float) (s : bool) : Prim2SF u = S754_zero s -> u = 0 \/ u = (-0).
Proof.
  intros Hs. destruct s; [right|left]; apply Prim2SF_inj; rewrite Hs; reflexivity.
Qed.
End Binary64.

(** * Mutating and non-mutating forms

    Statements that hold in every arithmetic: the mutating method leaves the
    receiver holding what the [const] method returns. *)

Section Agreement.
Context {T : Type} {S : Scalar T}.
Local Open Scope scalar_scope.

Lemma op_div_assign_vec_eq (v w : ofVec3d T) :
  op_div_assign_vec v w = op_div_vec v w.
Proof.
  destruct v as [vx vy vz], w as [wx wy wz].
  unfold op_div_assign_vec, op_div_vec, set_x, set_y, set_z; cbn [x y z].
  destruct (wx == s0), (wy == s0), (wz == s0); reflexivity.
Qed.

Lemma op_div_assign_eq (v : ofVec3d T) (f : T) : op_div_assign v f = op_div v f.
Proof.
  destruct v as [vx vy vz]. unfold op_div_assign, op_div.
  destruct (f == s0); reflexivity.
Qed.

Lemma map_eq (v origin vx vy vz : ofVec3d T) :
  map v origin vx vy vz = getMapped v origin vx vy vz.
Proof. destruct v; reflexivity. Qed.

Lemma interpolate_eq (v pnt : ofVec3d T) (p : T) :
  interpolate v pnt p = getInterpolated v pnt p.
Proof. destruct v; reflexivity. Qed.



(** Where it is not, [getScaled] returns [ofVec3d()] and [scale] leaves the
    receiver as it is. *)
Lemma scale_when_length_not_positive (v : ofVec3d T) (k : T) :
  (length v > s0) = false -> scale v k = v /\ getScaled v k = ofVec3d_default.
Proof.
  unfold length, scale, getScaled. intros ->. split; reflexivity.
Qed.


Lemma normalize_when_length_not_positive (v : ofVec3d T) :
  (length v > s0) = false -> normalize v = v /\ getNormalized v = ofVec3d_default.
Proof.
  unfold length, normalize, getNormalized. intros ->. split; reflexivity.
Qed.

Context {M : Cmath.Lib T} {K : OfConstants T}.

Lemma rotate_axis_eq (v : ofVec3d T) (angle : T) (axis : ofVec3d T) :
  rotate_axis v angle axis = getRotated_axis v angle axis.
Proof. destruct v; reflexivity. Qed.


End Agreement.

(** * Comparison *)

Section Comparison.
Local Open Scope float_scope.

(** C10.  On doubles, [v != w] is the negation of [v == w] for all
    component values, NaN included: with a NaN component [==] is false and
    [!=] is true. *)
Theorem op_ne_negates_op_eq :
  (forall v w : double3, op_ne v w = negb (op_eq v w))
  /\ op_eq (Vec3 nan 0 0) (Vec3 nan 0 0) = false
  /\ op_ne (Vec3 nan 0 0) (Vec3 nan 0 0) = true.
Proof.
  split; [|split; reflexivity].
  intros v w. unfold op_ne, op_eq.
  now rewrite !negb_andb.
Qed.

(** C8.  [match] holds exactly when each of the three component differences,
    as the code computes them, is strictly below the tolerance in absolute
    value.  The documented example: (40,20,70) against (40.01,19.999,70.05)
    matches with tolerance 0.1 and not with 0.01.  The test is per axis and
    not on the distance: (0,0,0) and (0.09,0.09,0.09) match with tolerance
    0.1 although their distance is not below 0.1. *)
Theorem match_is_per_axis :
  (forall (v w : double3) (t : float),
      match_ v w t = true <->
      (abs (x v - x w) <? t) = true
      /\ (abs (y v - y w) <? t) = true
      /\ (abs (z v - z w) <? t) = true)
  /\ match_ (Vec3 40 20 70) (Vec3 40.01 19.999 70.05) 0.1 = true
  /\ match_ (Vec3 40 20 70) (Vec3 40.01 19.999 70.05) 0.01 = false
  /\ match_ (Vec3 0 0 0) (Vec3 0.09 0.09 0.09) 0.1 = true
  /\ (distance (Vec3 0 0 0) (Vec3 0.09 0.09 0.09) <? 0.1) = false.
Proof.
  split; [|repeat split; vm_compute; reflexivity].
  intros v w t. unfold match_. cbn [sltb sfabs ssub double_scalar].
  rewrite !andb_true_iff. tauto.
Qed.
End Comparison.

(** * Division *)

Section Division.
Local Open Scope float_scope.

(** C4.  Dividing by the scalar zero, of either sign, returns the vector
    unchanged, component for component; so does the assignment form. *)
Theorem op_div_by_scalar_zero (v : double3) :
  op_div v 0 = v /\ op_div_assign v 0 = v
  /\ op_div v (-0) = v /\ op_div_assign v (-0) = v.
Proof. destruct v; repeat split; reflexivity. Qed.

(** C3.  Division by a vector divides each component by the divisor's
    component, except that a component whose divisor compares equal to zero
    is kept; the assignment form does the same; dividing by (0,0,0) returns
    the vector unchanged, and the result then also compares equal to it
    under [operator==] unless it holds a NaN. *)
Theorem op_div_vec_keeps_component_on_zero_divisor (v w : double3) :
  x (op_div_vec v w) = (if x w =? 0 then x v else x v / x w)
  /\ y (op_div_vec v w) = (if y w =? 0 then y v else y v / y w)
  /\ z (op_div_vec v w) = (if z w =? 0 then z v else z v / z w)
  /\ op_div_assign_vec v w = op_div_vec v w
  /\ op_div_vec v (Vec3 0 0 0) = v
  /\ (nan_free3 v = true -> op_eq (op_div_vec v (Vec3 0 0 0)) v = true).
Proof.
  assert (H0 : op_div_vec v (Vec3 0 0 0) = v) by (destruct v; reflexivity).
  repeat split.
  - unfold op_div_vec; cbn [x seqb s0 sdiv double_scalar]. now destruct (x w =? 0).
  - unfold op_div_vec; cbn [y seqb s0 sdiv double_scalar]. now destruct (y w =? 0).
  - unfold op_div_vec; cbn [z seqb s0 sdiv double_scalar]. now destruct (z w =? 0).
  - apply op_div_assign_vec_eq.
  - exact H0.
  - rewrite H0. unfold nan_free3, op_eq. cbn [seqb double_scalar].
    rewrite !andb_true_iff, !negb_true_iff. intros [[Hx Hy] Hz].
    now rewrite !Binary64.eqb_refl_not_nan by assumption.
Qed.

Lemma op_div_vec_keeps_component_on_zero_divisor_witness :
  nan_free3 (Vec3 6 8 10) = true
  /\ op_div_vec (Vec3 6 8 10) (Vec3 2 0 4) = Vec3 3 8 2.5
  /\ op_eq (op_div_vec (Vec3 6 8 10) (Vec3 0 0 0)) (Vec3 6 8 10) = true.
Proof.
  split; [reflexivity|]. split; [reflexivity|].
  apply (op_div_vec_keeps_component_on_zero_divisor (Vec3 6 8 10) (Vec3 0 0 0)).
  reflexivity.
Defined.
End Division.

(** * Interpolation *)

Section Interpolation.
Local Open Scope float_scope.

Lemma interpolate_component_at_0 (u w : float) :
  is_finite u = true -> is_finite w = true ->
  (u * (1 - 0) + w * 0 =? u) = true.
Proof.
  intros Hu Hw. change (1 - 0) with 1. rewrite Binary64.mul_1_r.
  destruct (Binary64.mul_0_r_finite _ Hw) as [s Hs].
  exact (Binary64.add_zero_r_eqb _ _ _ Hu Hs).
Qed.

Lemma interpolate_component_at_1 (u w : float) :
  is_finite u = true -> is_finite w = true ->
  (u * (1 - 1) + w * 1 =? w) = true.
Proof.
  intros Hu Hw. change (1 - 1) with 0. rewrite Binary64.mul_1_r.
  destruct (Binary64.mul_0_r_finite _ Hu) as [s Hs].
  exact (Binary64.add_zero_l_eqb _ _ _ Hw Hs).
Qed.

(** C9, as amended.  For vectors [a], [b] of finite doubles, interpolating
    at 0 gives a vector that compares equal to [a] under [operator==], and
    interpolating at 1 one that compares equal to [b]. *)
Theorem getInterpolated_endpoints (a b : double3) :
  finite3 a = true -> finite3 b = true ->
  op_eq (getInterpolated a b 0) a = true
  /\ op_eq (getInterpolated a b 1) b = true.
Proof.
  unfold finite3. rewrite !andb_true_iff.
  intros [[Hax Hay] Haz] [[Hbx Hby] Hbz].
  unfold op_eq, getInterpolated.
  cbn [x y z seqb sadd smul ssub s1 double_scalar].
  rewrite !interpolate_component_at_0, !interpolate_component_at_1 by assumption.
  split; reflexivity.
Qed.

Lemma getInterpolated_endpoints_witness :
  op_eq (getInterpolated (Vec3 0 5 0) (Vec3 10 10 20) 0) (Vec3 0 5 0) = true
  /\ op_eq (getInterpolated (Vec3 0 5 0) (Vec3 10 10 20) 1) (Vec3 10 10 20) = true.
Proof.
  apply (getInterpolated_endpoints (Vec3 0 5 0) (Vec3 10 10 20)); reflexivity.
Defined.

(** C9 does not hold for every pair of vectors: an infinite component of the
    other endpoint is multiplied by the weight 0, which gives NaN. *)
Lemma getInterpolated_endpoints_counterexample :
  getInterpolated (Vec3 1 2 3) (Vec3 infinity 0 0) 0 = Vec3 nan 2 3
  /\ op_eq (getInterpolated (Vec3 1 2 3) (Vec3 infinity 0 0) 0) (Vec3 1 2 3) = false
  /\ getInterpolated (Vec3 infinity 2 3) (Vec3 1 0 0) 1 = Vec3 nan 0 0
  /\ op_eq (getInterpolated (Vec3 infinity 2 3) (Vec3 1 0 0) 1) (Vec3 1 0 0) = false.
Proof. repeat split; vm_compute; reflexivity. Qed.
End Interpolation.

(** * Scaling *)

Section Scaling.
Local Open Scope float_scope.

(** C5.  Where the computed length is not positive the two forms part:
    [getScaled] returns (0,0,0), [scale] leaves the receiver as it is.  The
    square of 2^-600 underflows to 0, so this happens for the non-zero
    vector (2^-600, 0, 0). *)
Theorem scale_differs_from_getScaled :
  getScaled (Vec3 0x1p-600 0 0) 1 = Vec3 0 0 0
  /\ scale (Vec3 0x1p-600 0 0) 1 = Vec3 0x1p-600 0 0
  /\ op_eq (getScaled (Vec3 0x1p-600 0 0) 1) (scale (Vec3 0x1p-600 0 0) 1) = false.
Proof. repeat split; vm_compute; reflexivity. Qed.
End Scaling.

(** * Angles *)

Section ZeroVectors.
Local Open Scope float_scope.

(** A vector that compares equal to (0,0,0) normalizes to (0,0,0). *)
Lemma getNormalized_zero (v : double3) :
  op_eq v (Vec3 0 0 0) = true -> getNormalized v = Vec3 0 0 0.
Proof.
  destruct v as [vx vy vz]. unfold op_eq. cbn [x y z seqb double_scalar].
  rewrite !andb_true_iff. intros [[Hx Hy] Hz].
  destruct (Binary64.eqb_zero_cases _ Hx) as [-> | ->],
           (Binary64.eqb_zero_cases _ Hy) as [-> | ->],
           (Binary64.eqb_zero_cases _ Hz) as [-> | ->]; reflexivity.
Qed.

(** The dot product of (0,0,0) with a vector of finite doubles is a zero. *)
Lemma dot_zero_l (n : double3) :
  finite3 n = true -> dot (Vec3 0 0 0) n = 0 \/ dot (Vec3 0 0 0) n = (-0).
Proof.
  unfold finite3. rewrite !andb_true_iff. intros [[Hx Hy] Hz].
  unfold dot. cbn [x y z sadd smul double_scalar].
  destruct (Binary64.mul_0_l_finite _ Hx) as [sx Hsx].
  destruct (Binary64.mul_0_l_finite _ Hy) as [sy Hsy].
  destruct (Binary64.mul_0_l_finite _ Hz) as [sz Hsz].
  destruct (Binary64.add_zeros _ _ _ _ Hsx Hsy) as [sxy Hsxy].
  destruct (Binary64.add_zeros _ _ _ _ Hsxy Hsz) as [s Hs].
  exact (Binary64.zero_cases _ _ Hs).
Qed.

Lemma dot_zero_r (n : double3) :
  finite3 n = true -> dot n (Vec3 0 0 0) = 0 \/ dot n (Vec3 0 0 0) = (-0).
Proof.
  unfold finite3. rewrite !andb_true_iff. intros [[Hx Hy] Hz].
  unfold dot. cbn [x y z sadd smul double_scalar].
  destruct (Binary64.mul_0_r_finite _ Hx) as [sx Hsx].
  destruct (Binary64.mul_0_r_finite _ Hy) as [sy Hsy].
  destruct (Binary64.mul_0_r_finite _ Hz) as [sz Hsz].
  destruct (Binary64.add_zeros _ _ _ _ Hsx Hsy) as [sxy Hsxy].
  destruct (Binary64.add_zeros _ _ _ _ Hsxy Hsz) as [s Hs].
  exact (Binary64.zero_cases _ _ Hs).
Qed.
End ZeroVectors.

Section Angles.
Context {M : Cmath.Lib float} {K : OfConstants float}.
Local Open Scope float_scope.

(** C2, as amended.  When one of the two vectors is a zero vector and the
    other normalizes to finite components, the value handed to [acos] is a
    zero, which lies inside the domain of the arc cosine: [angleRad] returns
    acos(0) and [angle] returns acos(0) * RAD_TO_DEG, whichever side the
    zero vector is on. *)
Theorem angle_with_zero_vector (v w : double3) :
  op_eq v (Vec3 0 0 0) = true ->
  finite3 (getNormalized w) = true ->
  (exists d, (d = 0 \/ d = (-0))
             /\ angleRad v w = Cmath.acos d
             /\ angle v w = Cmath.acos d * RAD_TO_DEG)
  /\ (exists d, (d = 0 \/ d = (-0))
                /\ angleRad w v = Cmath.acos d
                /\ angle w v = Cmath.acos d * RAD_TO_DEG).
Proof.
  intros Hv Hw. unfold angleRad, angle.
  rewrite (getNormalized_zero v Hv).
  split.
  - exists (dot (Vec3 0 0 0) (getNormalized w)).
    split; [exact (dot_zero_l _ Hw) | split; reflexivity].
  - exists (dot (getNormalized w) (Vec3 0 0 0)).
    split; [exact (dot_zero_r _ Hw) | split; reflexivity].
Qed.
End Angles.

Section AnglesAtInstances.
Local Open Scope float_scope.

(** An instance at a <cmath> and at conversion factors chosen for the
    occasion: the statement holds whatever they are. *)
Lemma angle_with_zero_vector_witness :
  let M := {| Cmath.sin := fun u => u; Cmath.cos := fun u => u;
              Cmath.acos := fun _ => 0x1.921fb54442d18p+0 |} in
  let K := {| DEG_TO_RAD := 0x1.1df46a2529d39p-6;
              RAD_TO_DEG := 0x1.ca5dc1a63c1f8p+5 |} in
  angleRad (Vec3 0 0 0) (Vec3 3 4 0) = 0x1.921fb54442d18p+0
  /\ angle (Vec3 0 0 0) (Vec3 3 4 0) = 90.
Proof.
  intros M K.
  destruct (@angle_with_zero_vector M K (Vec3 0 0 0) (Vec3 3 4 0))
    as [[d [_ [Hrad Hdeg]]] _]; [reflexivity | reflexivity |].
  rewrite Hrad, Hdeg. split; vm_compute; reflexivity.
Defined.

(** C2 does not hold: with any arc cosine that is defined at 0, the angle
    between (0,0,0) and (1,0,0) is acos(0), not NaN, on either side. *)
Lemma angle_with_zero_vector_counterexample :
  ~ (exists (M : Cmath.Lib float) (K : OfConstants float),
        is_nan (Cmath.acos 0) = false
        /\ (is_nan (angleRad (Vec3 0 0 0) (Vec3 1 0 0)) = true
            \/ is_nan (angleRad (Vec3 1 0 0) (Vec3 0 0 0)) = true)).
Proof.
  intros [M [K [Hacos H]]].
  change (angleRad (Vec3 0 0 0) (Vec3 1 0 0)) with (Cmath.acos 0) in H.
  change (angleRad (Vec3 1 0 0) (Vec3 0 0 0)) with (Cmath.acos 0) in H.
  rewrite Hacos in H. destruct H; discriminate.
Qed.
End AnglesAtInstances.

(** * Rotation, read with exact arithmetic *)

Section RealRotation.
Local Open Scope R_scope.











End RealRotation.

(** * Normalizing and limiting *)

Section RealLength.
Local Open Scope R_scope.





End RealLength.

Section DoubleLength.
Local Open Scope float_scope.






End DoubleLength.

(** * More facts about binary64 arithmetic

    Algebraic laws that hold for every double, NaN and the infinities
    included, again from the specification of the primitive operations. *)

Module Binary64Laws.
Local Open Scope float_scope.

Lemma SFmul_comm (f g : spec_float) : SF64mul f g = SF64mul g f.
Proof.
  destruct f as [s|s| |s m e], g as [t|t| |t n e'];
    try (destruct s, t; reflexivity); try (destruct s; reflexivity);
    try (destruct t; reflexivity); try reflexivity.
  unfold SF64mul, SFmul.
  now rewrite xorb_comm, Pos.mul_comm, Z.add_comm.
Qed.

(** Multiplication of doubles is commutative. *)
Lemma mul_comm (u w : float) : u * w = w * u.
Proof. apply Prim2SF_inj. rewrite !mul_spec. apply SFmul_comm. Qed.

Lemma SFadd_comm (f g : spec_float) : SF64add f g = SF64add g f.
Proof.
  destruct f as [s|s| |s m e], g as [t|t| |t n e'];
    try (destruct s, t; reflexivity); try (destruct s; reflexivity);
    try (destruct t; reflexivity); try reflexivity.
  unfold SF64add, SFadd.
  rewrite (Z.min_comm e' e).
  now rewrite Z.add_comm.
Qed.

(** Addition of doubles is commutative. *)
Lemma add_comm (u w : float) : u + w = w + u.
Proof. apply Prim2SF_inj. rewrite !add_spec. apply SFadd_comm. Qed.

(** Negating twice gives the double back. *)
Lemma opp_involutive (u : float) : - (- u) = u.
Proof.
  apply Prim2SF_inj. rewrite !opp_spec.
  destruct (Prim2SF u) as [s|s| |s m e]; cbn; now rewrite ?negb_involutive.
Qed.

(** Subtracting is adding the negation. *)
Lemma sub_add_opp (u w : float) : u - w = u + (- w).
Proof.
  apply Prim2SF_inj. rewrite sub_spec, add_spec, opp_spec.
  destruct (Prim2SF u) as [s|s| |s m e], (Prim2SF w) as [t|t| |t n e'];
    try (destruct s, t; reflexivity); try (destruct s; reflexivity);
    try (destruct t; reflexivity); reflexivity.
Qed.

Lemma binary_round_aux_opp (s : bool) (k e : Z) (l : location) :
  SFopp (binary_round_aux prec emax s k e l) = binary_round_aux prec emax (negb s) k e l.
Proof.
  unfold binary_round_aux.
  destruct (shr_fexp prec emax k e l) as [mrs' e1].
  destruct (shr_fexp prec emax _ e1 loc_Exact) as [mrs'' e2].
  destruct (shr_m mrs''); try reflexivity.
  now destruct (e2 <=? emax - prec)%Z.
Qed.

Lemma binary_round_opp (s : bool) (m : positive) (e : Z) :
  SFopp (binary_round prec emax s m e) = binary_round prec emax (negb s) m e.
Proof.
  unfold binary_round.
  destruct (shl_align m e _) as [mz ez]. apply binary_round_aux_opp.
Qed.

Lemma binary_normalize_opp (k e : Z) :
  opp_or_zeros (binary_normalize prec emax k e false)
               (binary_normalize prec emax (- k) e false).
Proof.
  destruct k as [|p|p]; cbn [Z.opp binary_normalize].
  - right. eauto.
  - left. now rewrite binary_round_opp.
  - left. now rewrite binary_round_opp.
Qed.

Lemma SFsub_swap (f g : spec_float) : opp_or_zeros (SF64sub f g) (SF64sub g f).
Proof.
  destruct f as [s|s| |s m e], g as [t|t| |t n e'];
    try (destruct s, t; (left; reflexivity) || (right; eexists; eexists; split; reflexivity));
    try (left; reflexivity).
  unfold SF64sub, SFsub. rewrite (Z.min_comm e' e).
  match goal with |- opp_or_zeros (binary_normalize _ _ ?k _ _) (binary_normalize _ _ ?k' _ _) =>
    replace k' with (- k)%Z by lia end.
  apply binary_normalize_opp.
Qed.

Lemma SFabs_opp_or_zeros (f g : spec_float) : opp_or_zeros f g -> SFabs g = SFabs f.
Proof.
  intros [-> | [s [t [-> ->]]]]; [|reflexivity].
  now destruct f.
Qed.

Lemma SFmul_square_opp_or_zeros (f g : spec_float) :
  opp_or_zeros f g -> SF64mul g g = SF64mul f f.
Proof.
  intros [-> | [s [t [-> ->]]]].
  - destruct f as [s|s| |s m e]; cbn; try reflexivity; now destruct s.
  - now destruct s, t.
Qed.

(** Swapping the operands of a difference does not change its absolute
    value. *)
Lemma abs_sub_swap (u w : float) : abs (u - w) = abs (w - u).
Proof.
  apply Prim2SF_inj. rewrite !abs_spec, !sub_spec.
  symmetry. apply SFabs_opp_or_zeros, SFsub_swap.
Qed.

(** Nor its square. *)
Lemma square_sub_swap (u w : float) : (u - w) * (u - w) = (w - u) * (w - u).
Proof.
  apply Prim2SF_inj. rewrite !mul_spec, !sub_spec.
  symmetry. apply SFmul_square_opp_or_zeros, SFsub_swap.
Qed.

Lemma SFcompare_swap (f g : spec_float) :
  SFcompare g f = option_map CompOpp (SFcompare f g).
Proof.
  destruct f as [s|s| |s m e], g as [t|t| |t n e'];
    try (destruct s, t; reflexivity); try (destruct s; reflexivity);
    try (destruct t; reflexivity); try reflexivity.
  unfold SFcompare.
  rewrite (Z.compare_antisym e e').
  pose proof (Pos.compare_cont_antisym m n Eq) as Hmn. cbn [CompOpp] in Hmn.
  destruct s, t, (e ?= e')%Z; cbn; try reflexivity;
    rewrite <- Hmn, ?CompOpp_involutive; reflexivity.
Qed.

(** [==] on doubles is symmetric. *)
Lemma eqb_sym (u w : float) : (u =? w) = (w =? u).
Proof.
  rewrite !eqb_spec. unfold SFeqb. rewrite (SFcompare_swap (Prim2SF w) (Prim2SF u)).
  now destruct (SFcompare (Prim2SF w) (Prim2SF u)) as [[| |]|].
Qed.

(** An absolute value is below positive doubles only. *)
Lemma abs_ltb_positive (u t : float) : (abs u <? t) = true -> (0 <? t) = true.
Proof.
  rewrite !ltb_spec, abs_spec. change (Prim2SF 0) with (S754_zero false).
  destruct (Prim2SF u) as [s|s| |s m e], (Prim2SF t) as [r|r| |r n e'];
    cbn; try discriminate; try (now destruct r); try (now destruct s).
Qed.

(** The difference of a finite double and itself is +0. *)
Lemma abs_sub_self_finite (u : float) :
  is_finite u = true -> abs (u - u) = 0.
Proof.
  intros H. apply Prim2SF_inj. rewrite abs_spec, sub_spec.
  destruct (Binary64.is_finite_cases _ H) as [[s ->]|[s [m [e ->]]]].
  - now destruct s.
  - unfold SF64sub, SFsub. rewrite Z.sub_diag. reflexivity.
Qed.
End Binary64Laws.

(** * Further properties: operators and comparisons on doubles *)

Section DoubleOperators.
Local Open Scope float_scope.

(** X1.  On doubles, adding two vectors does not depend on their order, the
    scalar-left [f + v] is the member [v + f], and [+=] leaves the receiver
    holding what [+] returns. *)
Theorem op_add_commutes (v w : double3) (f : float) :
  op_add v w = op_add w v
  /\ scalar_add f v = op_add_scalar v f
  /\ op_add_assign v w = op_add v w
  /\ op_add_assign_scalar v f = op_add_scalar v f.
Proof.
  destruct v as [vx vy vz], w as [wx wy wz].
  unfold op_add, scalar_add, op_add_scalar; cbn [x y z sadd double_scalar].
  repeat split.
  - now rewrite (Binary64Laws.add_comm vx), (Binary64Laws.add_comm vy),
      (Binary64Laws.add_comm vz).
  - now rewrite (Binary64Laws.add_comm f vx), (Binary64Laws.add_comm f vy),
      (Binary64Laws.add_comm f vz).
Qed.

(** X2.  On doubles, the component-wise product does not depend on the
    order of the vectors, the scalar-left [f * v] is the member [v * f], and
    [*=] leaves the receiver holding what [*] returns. *)
Theorem op_mul_commutes (v w : double3) (f : float) :
  op_mul_vec v w = op_mul_vec w v
  /\ scalar_mul f v = op_mul v f
  /\ op_mul_assign_vec v w = op_mul_vec v w
  /\ op_mul_assign v f = op_mul v f.
Proof.
  destruct v as [vx vy vz], w as [wx wy wz].
  unfold op_mul_vec, scalar_mul, op_mul; cbn [x y z smul double_scalar].
  repeat split.
  - now rewrite (Binary64Laws.mul_comm vx), (Binary64Laws.mul_comm vy),
      (Binary64Laws.mul_comm vz).
  - now rewrite (Binary64Laws.mul_comm f vx), (Binary64Laws.mul_comm f vy),
      (Binary64Laws.mul_comm f vz).
Qed.

Lemma dot_comm (v w : double3) : dot v w = dot w v.
Proof.
  destruct v as [vx vy vz], w as [wx wy wz].
  unfold dot; cbn [x y z sadd smul double_scalar].
  now rewrite (Binary64Laws.mul_comm vx), (Binary64Laws.mul_comm vy),
    (Binary64Laws.mul_comm vz).
Qed.

(** X4.  On doubles, negating a vector twice gives it back bit for bit, and
    subtracting a vector is adding its negation. *)
Theorem op_neg_involutive_and_op_sub (v w : double3) :
  op_neg (op_neg v) = v
  /\ op_sub v w = op_add v (op_neg w)
  /\ op_sub_assign v w = op_sub v w.
Proof.
  destruct v as [vx vy vz], w as [wx wy wz].
  unfold op_neg, op_sub, op_add; cbn [x y z sneg ssub sadd double_scalar double_scalar_more].
  repeat split.
  - now rewrite !Binary64Laws.opp_involutive.
  - now rewrite !Binary64Laws.sub_add_opp.
Qed.

(** X5.  On doubles, the distance between two points and its square do not
    depend on which point is the receiver, and the distance is the square
    root of [squareDistance]. *)
Theorem distance_symmetric (v w : double3) :
  squareDistance v w = squareDistance w v
  /\ distance v w = distance w v
  /\ distance v w = PrimFloat.sqrt (squareDistance v w).
Proof.
  destruct v as [vx vy vz], w as [wx wy wz].
  unfold distance, squareDistance; cbn [x y z sadd ssub smul ssqrt double_scalar].
  rewrite (Binary64Laws.square_sub_swap vx wx), (Binary64Laws.square_sub_swap vy wy),
    (Binary64Laws.square_sub_swap vz wz).
  repeat split.
Qed.

(** X6.  On doubles, [match] does not depend on which vector is the
    receiver. *)
Theorem match_symmetric (v w : double3) (t : float) :
  match_ v w t = match_ w v t.
Proof.
  destruct v as [vx vy vz], w as [wx wy wz].
  unfold match_; cbn [x y z sltb sfabs ssub double_scalar].
  now rewrite (Binary64Laws.abs_sub_swap vx wx), (Binary64Laws.abs_sub_swap vy wy),
    (Binary64Laws.abs_sub_swap vz wz).
Qed.

(** X7.  On doubles, no two vectors match when the tolerance is not above
    zero: with a tolerance that is zero, negative or NaN, [match] is false,
    also for a vector against itself. *)
Theorem match_needs_positive_tolerance (v w : double3) (t : float) :
  (0 <? t) = false -> match_ v w t = false.
Proof.
  intros Ht. unfold match_; cbn [sltb sfabs ssub double_scalar].
  destruct (abs (x v - x w) <? t) eqn:Hx; [|reflexivity].
  apply Binary64Laws.abs_ltb_positive in Hx. congruence.
Qed.

Lemma match_needs_positive_tolerance_witness :
  match_ (Vec3 1 2 3) (Vec3 1 2 3) 0 = false
  /\ match_ (Vec3 1 2 3) (Vec3 1 2 3) nan = false.
Proof.
  split.
  - apply (match_needs_positive_tolerance (Vec3 1 2 3) (Vec3 1 2 3) 0). reflexivity.
  - apply (match_needs_positive_tolerance (Vec3 1 2 3) (Vec3 1 2 3) nan). reflexivity.
Defined.

(** X8.  On doubles, a vector of finite components matches itself exactly
    when the tolerance is above zero. *)
Theorem match_reflexive (v : double3) (t : float) :
  finite3 v = true -> match_ v v t = (0 <? t).
Proof.
  unfold finite3. rewrite !andb_true_iff. intros [[Hx Hy] Hz].
  unfold match_; cbn [sltb sfabs ssub double_scalar].
  rewrite !Binary64Laws.abs_sub_self_finite by assumption.
  now destruct (0 <? t).
Qed.

Lemma match_reflexive_witness :
  match_ (Vec3 40 20 70) (Vec3 40 20 70) 0.0001 = true.
Proof.
  now rewrite (match_reflexive (Vec3 40 20 70) 0.0001).
Defined.

(** X9.  On doubles, [operator==] does not depend on which vector is the
    receiver, and a vector compares equal to itself exactly when none of its
    components is NaN. *)
Theorem op_eq_symmetric (v w : double3) :
  op_eq v w = op_eq w v /\ op_eq v v = nan_free3 v.
Proof.
  unfold op_eq, nan_free3, is_nan; cbn [seqb double_scalar]. split.
  - now rewrite (Binary64Laws.eqb_sym (x v)), (Binary64Laws.eqb_sym (y v)),
      (Binary64Laws.eqb_sym (z v)).
  - now rewrite !negb_involutive.
Qed.

(** X10.  On doubles, [getMapped] is the origin plus the three basis vectors
    scaled by the receiver's components, built with the class's own
    operators in that order; [map] leaves the receiver holding the same. *)
Theorem getMapped_is_affine_combination (v origin vx vy vz : double3) :
  getMapped v origin vx vy vz =
  op_add (op_add (op_add origin (op_mul vx (x v))) (op_mul vy (y v))) (op_mul vz (z v))
  /\ map v origin vx vy vz = getMapped v origin vx vy vz.
Proof.
  split; [|apply map_eq].
  unfold getMapped, op_add, op_mul; cbn [x y z sadd smul double_scalar].
  now rewrite !(Binary64Laws.mul_comm (x v)), !(Binary64Laws.mul_comm (y v)),
    !(Binary64Laws.mul_comm (z v)).
Qed.

(** X11.  On doubles, [average] with a count of 0 sets every component of
    the receiver to NaN (0/0), whatever the receiver held and whatever the
    array holds. *)
Theorem average_of_no_points (v : double3) (points : list double3) :
  average v points 0 = Some (Vec3 nan nan nan).
Proof.
  unfold average.
  destruct (_ <? 0)%Z eqn:H; [apply Z.ltb_lt in H; lia | reflexivity].
Qed.
End DoubleOperators.

Section DoubleAngles.
Context {M : Cmath.Lib float} {K : OfConstants float}.
Local Open Scope float_scope.

(** X3.  On doubles, the dot product does not depend on the order of the
    vectors, and so neither do [angle], [angleRad] and the two alignment
    tests, whatever <cmath> computes. *)
Theorem dot_and_angle_symmetric (v w : double3) (t : float) :
  dot v w = dot w v
  /\ angleRad v w = angleRad w v
  /\ angle v w = angle w v
  /\ isAligned v w t = isAligned w v t
  /\ isAlignedRad v w t = isAlignedRad w v t.
Proof.
  unfold isAligned, isAlignedRad, angle, angleRad.
  rewrite (dot_comm (getNormalized v) (getNormalized w)).
  repeat split. apply dot_comm.
Qed.
End DoubleAngles.

(** * Further properties: how the methods compose, in every arithmetic *)

Section Composition.
Context {T : Type} {S : Scalar T}.
Local Open Scope scalar_scope.

(** X12.  In every arithmetic, [getPerpendicular] is [getNormalized] of
    [getCrossed]; [perpendicular] leaves the receiver holding what
    [getPerpendicular] returns, for every input (it zeroes the receiver
    where [getPerpendicular] returns (0,0,0)); [cross] leaves it holding
    what [getCrossed] returns. *)
Theorem getPerpendicular_is_normalized_cross (v w : ofVec3d T) :
  getPerpendicular v w = getNormalized (getCrossed v w)
  /\ perpendicular v w = getPerpendicular v w
  /\ cross v w = getCrossed v w.
Proof.
  destruct v as [vx vy vz], w as [wx wy wz].
  unfold getPerpendicular, perpendicular, getNormalized, getCrossed, cross; cbn [x y z].
  repeat split.
Qed.

Context {M : Cmath.Lib T} {K : OfConstants T}.


(** X14.  In every arithmetic, each rotation in degrees is the rotation in
    radians at the angle multiplied by [DEG_TO_RAD]. *)
Theorem getRotated_is_getRotatedRad (v : ofVec3d T) (angle ax ay az : T)
  (pivot axis : ofVec3d T) :
  getRotated_axis v angle axis = getRotatedRad_axis v (angle * DEG_TO_RAD) axis
  /\ getRotated_euler v ax ay az
     = getRotatedRad_euler v (DEG_TO_RAD * ax) (DEG_TO_RAD * ay) (DEG_TO_RAD * az)
  /\ getRotated_pivot v angle pivot axis
     = getRotatedRad_pivot v (angle * DEG_TO_RAD) pivot axis.
Proof. repeat split. Qed.
End Composition.

(** * Further properties: the geometry of the formulas, with exact arithmetic *)

Section RealGeometry.
Local Open Scope R_scope.











End RealGeometry.

Section RealMeasure.
Local Open Scope R_scope.









End RealMeasure.

Section RealAngles.
Local Open Scope R_scope.





End RealAngles.

Section RealAverage.
Local Open Scope R_scope.



End RealAverage.
